(** * option.ts: the Option type of src/option.ts, embedded and verified

    The library manipulates untyped JavaScript values: [Option.all] takes
    [any], and the function handed to [map] may return anything.  The
    embedding therefore starts from a small universe of JavaScript values
    and an effect monad in which caller-supplied functions run, and then
    transcribes every function of the source on top of it. *)

From Stdlib Require Import String List ZArith Bool Lia.
Import ListNotations.
Local Open Scope string_scope.
Local Open Scope list_scope.
Set Warnings "-register-all".

(** ** Effects

    A caller-supplied function may do two observable things besides
    returning: append to the outside world (here a log of lines, as
    [console.log] would) and throw.  Nothing in the library loops over
    unbounded data, so no fuel is needed. *)

Definition World : Type := list string.

Inductive Outcome (E A : Type) : Type :=
| Returned (a : A)
| Threw (e : E).

Arguments Returned {E A} a.
Arguments Threw {E A} e.

(** ** JavaScript values

    Numbers are the integer-valued doubles plus NaN, which is enough to
    tell the falsy numbers from the others.  A function object written by
    the caller is a bag of properties together with the body run by a call
    without arguments, the only kind of call the library performs on a
    value it did not build.  The two kinds of function object that the
    library builds, the result of [Some(value)] and the object made once
    by [makeNone()], have constructors of their own: [self._isSome = self]
    makes them cyclic, and the second one is a singleton. *)

Inductive Value : Type :=
| VUndefined
| VNull
| VBool (b : bool)
| VNum (n : Z)
| VNaN
| VStr (s : string)
| VArray (items : list Value)
| VObject (props : list (string * Value))
| VFunction (props : list (string * Value))
            (body : World -> Outcome Value Value * World)
| VSome (value : Value)
| VNone.

Definition M (A : Type) : Type := World -> Outcome Value A * World.

Definition ret {A : Type} (a : A) : M A := fun w => (Returned a, w).

Definition throw {A : Type} (e : Value) : M A := fun w => (Threw e, w).

Definition bind {A B : Type} (m : M A) (k : A -> M B) : M B :=
  fun w =>
    match m w with
    | (Returned a, w') => k a w'
    | (Threw e, w') => (Threw e, w')
    end.

Declare Scope js_scope.
Delimit Scope js_scope with js.
Notation "x <- m ;; k" := (bind m (fun x => k))
  (at level 100, m at next level, right associativity) : js_scope.
Local Open Scope js_scope.

(** One line written to the outside world. *)
Definition emit (line : string) : M Value :=
  fun w => (Returned VUndefined, w ++ [line]).

(** The error raised by the runtime itself: calling what is not callable. *)
Definition TypeError : Value := VObject [("name", VStr "TypeError")].

(** ** The runtime operations the source relies on *)

(** [ToBoolean]: what [&&], [||] and [? :] test. *)
Definition truthy (v : Value) : bool :=
  match v with
  | VUndefined | VNull | VNaN => false
  | VBool b => b
  | VNum n => negb (n =? 0)%Z
  | VStr s => negb (s =? "")
  | VArray _ | VObject _ | VFunction _ _ | VSome _ | VNone => true
  end.

Fixpoint assoc (key : string) (props : list (string * Value)) : Value :=
  match props with
  | [] => VUndefined
  | (k, v) :: rest => if k =? key then v else assoc key rest
  end.

Fixpoint has_key (key : string) (props : list (string * Value)) : bool :=
  match props with
  | [] => false
  | (k, _) :: rest => (k =? key) || has_key key rest
  end.

(** The property names the library reads off a value. *)
Inductive Key : Type := K_isSome | K_isNone | K_isLiftWrapper | K_value.

Definition key_name (k : Key) : string :=
  match k with
  | K_isSome => "_isSome"
  | K_isNone => "_isNone"
  | K_isLiftWrapper => "_isLiftWrapper"
  | K_value => "value"
  end.

(** [v[k]] for a [v] that is neither null nor undefined.  [Some(value)]
    sets [value] and [_isSome]; [makeNone()] sets [_isNone]; primitives and
    arrays have none of the four names. *)
Definition get (v : Value) (k : Key) : Value :=
  match v with
  | VObject props | VFunction props _ => assoc (key_name k) props
  | VSome value =>
      match k with
      | K_value => value
      | K_isSome => v
      | _ => VUndefined
      end
  | VNone =>
      match k with
      | K_isNone => v
      | _ => VUndefined
      end
  | _ => VUndefined
  end.

(** [k in v], for a [v] whose [typeof] is ['function']. *)
Definition has (v : Value) (k : Key) : bool :=
  match v with
  | VObject props | VFunction props _ => has_key (key_name k) props
  | VSome _ => match k with K_value | K_isSome => true | _ => false end
  | VNone => match k with K_isNone => true | _ => false end
  | _ => false
  end.

Definition is_function (v : Value) : bool :=
  match v with
  | VFunction _ _ | VSome _ | VNone => true
  | _ => false
  end.

(** [v()]: [Some(value)] is [() => value], the None object is
    [() => undefined], a caller's function runs its body, and anything else
    is not callable. *)
Definition call (v : Value) : M Value :=
  match v with
  | VFunction _ body => body
  | VSome value => ret value
  | VNone => ret VUndefined
  | _ => throw TypeError
  end.

(** ** Members of function objects

    A member of [someProto] or of the None object is a function of [this]
    and of at most one argument.  The shapes below are the ones the source
    uses; [Template] is the template literal of [someProto.toString],
    whose rendering of [this.value] belongs to the host. *)

Record Matcher : Type := { matcher_Some : Value -> M Value; matcher_None : M Value }.

Inductive Method : Type :=
| Nullary (f : Value -> M Value)
| OnFunction (f : Value -> (Value -> M Value) -> M Value)
| OnThunk (f : Value -> M Value -> M Value)
| OnValue (f : Value -> Value -> M Value)
| OnMatcher (f : Value -> Matcher -> M Value)
| Template (before after : string).

Fixpoint lookup (name : string) (table : list (string * Method)) : option Method :=
  match table with
  | [] => None
  | (k, m) :: rest => if k =? name then Some m else lookup name rest
  end.

(** ** src/option.ts *)

Definition isDef (value : Value) : bool :=
  match value with
  | VNull | VUndefined => false
  | _ => true
  end.

(** [export const None = makeNone()]: the one object [makeNone] returns. *)
Definition None : Value := VNone.

(** [function Some(value)]: the function object [() => value] with
    [value], [_isSome] and the members of [someProto] copied onto it; see
    [get], [call] and [methods]. *)
Definition Some (value : Value) : Value := VSome value.

Definition someProto : list (string * Method) :=
  [ ("isDefined", Nullary (fun this => ret (VBool true)));
    ("map", OnFunction (fun this fn =>
       result <- fn (get this K_value) ;;
       result <- (if truthy result && truthy (get result K_isLiftWrapper)
                  then call (get result K_value)
                  else ret result) ;;
       if isDef result then ret (Some result) else ret None));
    ("flatMap", OnFunction (fun this fn => fn (get this K_value)));
    ("filter", OnFunction (fun this fn =>
       keep <- fn (get this K_value) ;;
       if truthy keep then ret this else ret None));
    ("orElse", Nullary (fun this => ret this));
    ("getOrElse", Nullary (fun this => ret (get this K_value)));
    ("match", OnMatcher (fun this matcher => matcher_Some matcher (get this K_value)));
    ("toString", Template "Some(" ")");
    ("toJSON", Nullary (fun this => call this)) ].

(** [function returnNone() { return None }] *)
Definition returnNone (this : Value) : M Value := ret None.

(** The members [makeNone] assigns to [self], in the order of the source;
    [self._isNone = self] is a data property and lives in [get]. *)
Definition makeNone : list (string * Method) :=
  [ ("isDefined", Nullary (fun _ => ret (VBool false)));
    ("map", Nullary returnNone);
    ("flatMap", Nullary returnNone);
    ("filter", Nullary returnNone);
    ("orElse", OnThunk (fun _ alt => alt));
    ("getOrElse", OnValue (fun _ alt => ret alt));
    ("match", OnMatcher (fun _ matcher => matcher_None matcher));
    ("toString", Nullary (fun _ => ret (VStr "None")));
    ("toJSON", Nullary (fun _ => ret VNull)) ].

(** Everything [o.name(...)] can reach on an object built by the library:
    the two data properties set by [Some] (calling one calls the value it
    holds), then the members copied by [for (let key in someProto)]; for
    the None object, its marker and the members above.  What
    [Function.prototype] adds ([call], [apply], [bind]) is not modelled. *)
Definition methods (o : Value) : list (string * Method) :=
  match o with
  | VSome _ =>
      ("value", Nullary (fun this => call (get this K_value)))
      :: ("_isSome", Nullary (fun this => call (get this K_isSome)))
      :: someProto
  | VNone =>
      ("_isNone", Nullary (fun this => call (get this K_isNone))) :: makeNone
  | _ => []
  end.

(** The method call [o.name(...)]: [k] hands the arguments to the member
    found; a name that resolves to nothing is [undefined], and calling it
    throws.  Receivers the library did not build are outside its code and
    are treated as having no members. *)
Definition send (o : Value) (name : string) (k : Method -> M Value) : M Value :=
  match lookup name (methods o) with
  | Datatypes.Some m => k m
  | Datatypes.None => throw TypeError
  end.

(** Passing the arguments.  A member declared without parameters ignores
    what it is given.  A [Template] member is run by [toString] below and
    by nothing else. *)
Definition pass_nothing (this : Value) (m : Method) : M Value :=
  match m with
  | Nullary f => f this
  | _ => throw TypeError
  end.

Definition pass_function (this : Value) (fn : Value -> M Value) (m : Method) : M Value :=
  match m with
  | Nullary f => f this
  | OnFunction f => f this fn
  | _ => throw TypeError
  end.

Definition pass_thunk (this : Value) (alt : M Value) (m : Method) : M Value :=
  match m with
  | Nullary f => f this
  | OnThunk f => f this alt
  | _ => throw TypeError
  end.

Definition pass_value (this : Value) (alt : Value) (m : Method) : M Value :=
  match m with
  | Nullary f => f this
  | OnValue f => f this alt
  | _ => throw TypeError
  end.

Definition pass_matcher (this : Value) (matcher : Matcher) (m : Method) : M Value :=
  match m with
  | Nullary f => f this
  | OnMatcher f => f this matcher
  | _ => throw TypeError
  end.

(** The calls of the public interface, [o.isDefined()], [o.map(fn)], ... *)
Definition isDefined (o : Value) : M Value := send o "isDefined" (pass_nothing o).
Definition map (o : Value) (fn : Value -> M Value) : M Value := send o "map" (pass_function o fn).
Definition flatMap (o : Value) (fn : Value -> M Value) : M Value := send o "flatMap" (pass_function o fn).
Definition filter (o : Value) (fn : Value -> M Value) : M Value := send o "filter" (pass_function o fn).
Definition orElse (o : Value) (alternative : M Value) : M Value := send o "orElse" (pass_thunk o alternative).
Definition getOrElse (o : Value) (alternative : Value) : M Value := send o "getOrElse" (pass_value o alternative).
Definition match_ (o : Value) (matcher : Matcher) : M Value := send o "match" (pass_matcher o matcher).
Definition toJSON (o : Value) : M Value := send o "toJSON" (pass_nothing o).

(** [o.toString()].  The template literal converts [this.value] with the
    host's string conversion, taken here as the parameter [ToString]. *)
Definition toString (ToString : Value -> M string) (o : Value) : M Value :=
  send o "toString" (fun m =>
    match m with
    | Nullary f => f o
    | Template before after =>
        s <- ToString (get o K_value) ;;
        ret (VStr (before ++ s ++ after))
    | _ => throw TypeError
    end).

(** [o.forEach(procedure)], the call the README documents. *)
Definition forEach (o : Value) (procedure : Value -> M Value) : M Value :=
  send o "forEach" (pass_function o procedure).

(** [const OptionObject = function OptionObject<T>(value: T)] *)
Definition OptionObject (value : Value) : Value :=
  if isDef value then Some value else None.

(** [export const Option = OptionObject] *)
Definition Option : Value -> Value := OptionObject.

(** Line 102 of the source: a truthy input that carries a truthy [_isSome]
    or [_isNone] is replaced by the result of calling it. *)
Definition unwrap (value : Value) : M Value :=
  if truthy value && (truthy (get value K_isSome) || truthy (get value K_isNone))
  then call value
  else ret value.

(** The [for] loop of [OptionObject.all], from index [i] on: [args] is what
    is left of the arguments and [values] the array filled so far; [break]
    leaves the loop with [values] as it stands. *)
Fixpoint all_loop (args : list Value) (values : list Value) : M (list Value) :=
  match args with
  | [] => ret values
  | value :: rest =>
      value <- unwrap value ;;
      if negb (isDef value) then ret values
      else all_loop rest (values ++ [value])
  end.

Definition all (args : list Value) : M Value :=
  values <- all_loop args [] ;;
  if negb (length values =? length args)%nat then ret None
  else ret (Option (VArray values)).

(** [OptionObject.isOption] *)
Definition isOption (value : Value) : bool :=
  is_function value && (has value K_isSome || has value K_isNone).

(** ** Vocabulary of the statements *)

(** An Option as the data model describes it: the None object, or a
    [Some] whose content is neither null nor undefined. *)
Definition well_formed (o : Value) : bool :=
  match o with
  | VNone => true
  | VSome value => isDef value
  | _ => false
  end.

(** Whatever [m] returns, in any world, satisfies [P]. *)
Definition yields (P : Value -> Prop) (m : M Value) : Prop :=
  forall w, match fst (m w) with Returned r => P r | Threw _ => True end.

Definition yields_well_formed : M Value -> Prop :=
  yields (fun r => well_formed r = true).

(** The test [map] applies to what [fn] returned before unwrapping it. *)
Definition marked_wrapper (result : Value) : bool :=
  truthy result && truthy (get result K_isLiftWrapper).

(** The unwrap step of [all] run on every input in turn, with no early
    exit: the values the inputs stand for. *)
Fixpoint unwrap_each (args : list Value) : M (list Value) :=
  match args with
  | [] => ret []
  | value :: rest =>
      v <- unwrap value ;;
      vs <- unwrap_each rest ;;
      ret (v :: vs)
  end.

Definition defined (v : Value) : Prop := v <> VNull /\ v <> VUndefined.

(** The test of line 102 of the source on its own. *)
Definition recognised (value : Value) : bool :=
  truthy value && (truthy (get value K_isSome) || truthy (get value K_isNone)).

(** An input of [all] whose unwrap step can neither write nor throw: an
    object built by the library, or a value the test of line 102 rejects. *)
Definition quiet (value : Value) : bool :=
  match value with
  | VSome _ | VNone => true
  | _ => negb (recognised value)
  end.

(** What a quiet input stands for. *)
Definition payload (value : Value) : Value :=
  match value with
  | VSome content => content
  | VNone => VUndefined
  | _ => value
  end.

(** The values [all] has pushed when it leaves its loop: those before the
    first one that is null or undefined. *)
Fixpoint prefix_defined (vs : list Value) : list Value :=
  match vs with
  | [] => []
  | v :: rest => if isDef v then v :: prefix_defined rest else []
  end.

(** [v => p(v) && q(v)] *)
Definition both (p q : Value -> M Value) (v : Value) : M Value :=
  a <- p v ;; if truthy a then q v else ret a.

(** No result of [fn] is a marked wrapper. *)
Definition returns_plain (fn : Value -> M Value) : Prop :=
  forall v w, match fst (fn v w) with
              | Returned r => marked_wrapper r = false
              | Threw _ => True
              end.





(** ** Sample inputs *)

(** [{ _isLiftWrapper: true, value: () => null }] *)
Definition null_wrapper : Value :=
  VObject [("_isLiftWrapper", VBool true); ("value", VFunction [] (ret VNull))].

(** [{ _isLiftWrapper: true, value: () => 7 }] *)
Definition seven_wrapper : Value :=
  VObject [("_isLiftWrapper", VBool true); ("value", VFunction [] (ret (VNum 7)))].

(** [{ value: () => 5 }]: the exported [Wrapper] shape and nothing more. *)
Definition bare_wrapper : Value :=
  VObject [("value", VFunction [] (ret (VNum 5)))].

(** A function object that passes for an Option in [all] and writes
    [line] when it is called, before returning [v]. *)
Definition noisy_option (line : string) (v : Value) : Value :=
  VFunction [("_isSome", VBool true)] (_ <- emit line ;; ret v).

(** ** Basic facts *)

Lemma isDef_defined (v : Value) : isDef v = true <-> defined v.
Proof.
  unfold defined; destruct v; simpl; split; intros H;
    try (split; discriminate); try reflexivity; try discriminate;
    destruct H as [H1 H2]; congruence.
Qed.

Lemma isDef_false (v : Value) : isDef v = false <-> v = VNull \/ v = VUndefined.
Proof.
  destruct v; simpl; split; intros H; try discriminate; auto;
    destruct H; discriminate.
Qed.

Lemma Option_defined (v : Value) : isDef v = true -> Option v = Some v.
Proof. unfold Option, OptionObject; intros ->; reflexivity. Qed.

Lemma Option_well_formed (v : Value) : well_formed (Option v) = true.
Proof.
  unfold Option, OptionObject; destruct (isDef v) eqn:E; simpl; auto.
Qed.

Lemma bind_returned {A B : Type} (m : M A) (k : A -> M B) (w w' : World) (a : A) :
  m w = (Returned a, w') -> bind m k w = k a w'.
Proof. unfold bind; intros ->; reflexivity. Qed.

Lemma bind_threw {A B : Type} (m : M A) (k : A -> M B) (w w' : World) (e : Value) :
  m w = (Threw e, w') -> bind m k w = (Threw e, w').
Proof. unfold bind; intros ->; reflexivity. Qed.

(** The calls on a [Some] and on the None object, unfolded once. *)
Lemma map_Some (x : Value) (fn : Value -> M Value) (w : World) :
  map (Some x) fn w =
  (result <- fn x ;;
   result <- (if marked_wrapper result then call (get result K_value) else ret result) ;;
   ret (Option result)) w.
Proof.
  unfold map, send, Option, OptionObject, marked_wrapper; simpl.
  unfold bind.
  destruct (fn x w) as [[r | e] w1]; [ | reflexivity ].
  destruct (truthy r && truthy (get r K_isLiftWrapper)).
  - destruct (call (get r K_value) w1) as [[u | e] w2]; [ | reflexivity ].
    destruct (isDef u); reflexivity.
  - unfold ret; destruct (isDef r); reflexivity.
Qed.

Lemma map_None (fn : Value -> M Value) (w : World) : map None fn w = (Returned None, w).
Proof. reflexivity. Qed.

Lemma flatMap_Some (x : Value) (fn : Value -> M Value) (w : World) :
  flatMap (Some x) fn w = fn x w.
Proof. reflexivity. Qed.

Lemma filter_Some (x : Value) (fn : Value -> M Value) (w : World) :
  filter (Some x) fn w =
  (keep <- fn x ;; ret (if truthy keep then Some x else None)) w.
Proof.
  unfold filter, send; simpl.
  unfold bind.
  destruct (fn x w) as [[r | e] w1]; [ | reflexivity ].
  destruct (truthy r); reflexivity.
Qed.

(** ** The loop of [all] *)

Lemma unwrap_each_length (args vs : list Value) (w w' : World) :
  unwrap_each args w = (Returned vs, w') -> length vs = length args.
Proof.
  revert vs w w'; induction args as [ | a rest IH]; intros vs w w'; simpl.
  - unfold ret; intros H; inversion H; reflexivity.
  - unfold bind at 1.
    destruct (unwrap a w) as [[v | e] w1]; [ | discriminate ].
    unfold bind.
    destruct (unwrap_each rest w1) as [[vs' | e] w2] eqn:E; [ | discriminate ].
    unfold ret; intros H; inversion H; subst; simpl.
    f_equal; eapply IH; eassumption.
Qed.

(** No input stops the loop: it ends with every unwrapped value pushed. *)
Lemma all_loop_complete (args values vs : list Value) (w w' : World) :
  unwrap_each args w = (Returned vs, w') ->
  Forall (fun v => isDef v = true) vs ->
  all_loop args values w = (Returned (values ++ vs), w').
Proof.
  revert values vs w w'; induction args as [ | a rest IH]; intros values vs w w'; simpl.
  - unfold ret; intros H _; inversion H; subst. now rewrite app_nil_r.
  - unfold bind at 1 3.
    destruct (unwrap a w) as [[v | e] w1]; [ | discriminate ].
    unfold bind.
    destruct (unwrap_each rest w1) as [[vs' | e] w2] eqn:E; [ | discriminate ].
    unfold ret; intros H Hall; inversion H; subst.
    inversion Hall as [ | ? ? Hv Hrest ]; subst.
    rewrite Hv; simpl.
    rewrite (IH (values ++ [v]) vs' w1 w' E Hrest).
    now rewrite <- app_assoc.
Qed.


(** Inputs that are not recognised as Options are left as they are. *)
Lemma unwrap_each_raw (args : list Value) (w : World) :
  Forall (fun v => truthy v && (truthy (get v K_isSome) || truthy (get v K_isNone)) = false) args ->
  unwrap_each args w = (Returned args, w).
Proof.
  induction 1 as [ | a rest Ha _ IH]; simpl; [ reflexivity | ].
  unfold bind, unwrap; rewrite Ha; simpl. unfold bind in IH. now rewrite IH.
Qed.

(** ** The smart constructor *)

(** C1. For every value [v] that is neither null nor undefined,
    [Option(v)] is [Some(v)], it answers [true] to [isDefined()], and
    calling it yields [v] and touches nothing; [Option(null)] and
    [Option(undefined)] are both the one None object. *)
Theorem Option_of_value (v : Value) :
  v <> VNull -> v <> VUndefined ->
  (Option v = Some v /\
   (forall w, call (Option v) w = (Returned v, w)) /\
   (forall w, isDefined (Option v) w = (Returned (VBool true), w))) /\
  Option VNull = None /\
  Option VUndefined = None.
Proof.
  intros Hnull Hundef.
  assert (Hdef : isDef v = true) by (apply isDef_defined; split; assumption).
  rewrite (Option_defined v Hdef).
  repeat split; reflexivity.
Qed.

Lemma Option_of_value_witness :
  VNum 33 <> VNull /\ VNum 33 <> VUndefined /\
  Option (VNum 33) = Some (VNum 33) /\
  call (Option (VNum 33)) [] = (Returned (VNum 33), []).
Proof.
  assert (H1 : VNum 33 <> VNull) by discriminate.
  assert (H2 : VNum 33 <> VUndefined) by discriminate.
  destruct (Option_of_value (VNum 33) H1 H2) as [[Hsome [Hread _]] _].
  exact (conj H1 (conj H2 (conj Hsome (Hread [])))).
Defined.

(** ** [map] *)

(** The statement of C2 taken literally: whenever [fn(x)] is neither null
    nor undefined, [Some(x).map(fn)] is [Some(fn(x))].  It fails when
    [fn] returns a marked wrapper, here one whose [value()] is null: the
    result is None although [fn(x)] is an object. *)
Lemma map_keeps_defined_result_refuted :
  ~ (forall (x : Value) (fn : Value -> M Value) (w w' : World) (r : Value),
       defined x -> fn x w = (Returned r, w') -> defined r ->
       map (Some x) fn w = (Returned (Some r), w')).
Proof.
  intros claim.
  assert (Hx : defined (VNum 1)) by (split; discriminate).
  assert (Hr : defined null_wrapper) by (split; discriminate).
  specialize (claim (VNum 1) (fun _ => ret null_wrapper) [] [] null_wrapper
                    Hx eq_refl Hr).
  vm_compute in claim. discriminate claim.
Qed.

(** C2, amended.  When what [fn(x)] returns is not a marked wrapper (it is
    falsy or carries no truthy [_isLiftWrapper]), [Some(x).map(fn)] is
    [Some(fn(x))] if [fn(x)] is neither null nor undefined and None
    otherwise; and [Some(x).map(_ => null).isDefined()] is [false]. *)
Theorem map_collapses_null (x : Value) (fn : Value -> M Value) (w w' : World) (r : Value) :
  fn x w = (Returned r, w') ->
  marked_wrapper r = false ->
  (defined r -> map (Some x) fn w = (Returned (Some r), w')) /\
  (r = VNull \/ r = VUndefined -> map (Some x) fn w = (Returned None, w')) /\
  (forall w0, (o <- map (Some x) (fun _ => ret VNull) ;; isDefined o) w0
              = (Returned (VBool false), w0)).
Proof.
  intros Hfn Hplain.
  assert (Hmap : map (Some x) fn w = (Returned (Option r), w')).
  { rewrite map_Some. unfold bind. rewrite Hfn, Hplain. reflexivity. }
  split; [ | split ].
  - intros Hr. apply isDef_defined in Hr.
    rewrite Hmap, (Option_defined r Hr). reflexivity.
  - intros Hr. apply isDef_false in Hr.
    rewrite Hmap. unfold Option, OptionObject. rewrite Hr. reflexivity.
  - intros w0. reflexivity.
Qed.

Lemma map_collapses_null_witness :
  map (Some (VNum 33)) (fun a => ret (VArray [a; a])) []
    = (Returned (Some (VArray [VNum 33; VNum 33])), []) /\
  map (Some (VNum 33)) (fun _ => ret VUndefined) ["seen"]
    = (Returned None, ["seen"]).
Proof.
  split.
  - refine (proj1 (map_collapses_null (VNum 33) (fun a => ret (VArray [a; a]))
                     [] [] (VArray [VNum 33; VNum 33]) eq_refl eq_refl) _).
    split; discriminate.
  - refine (proj1 (proj2 (map_collapses_null (VNum 33) (fun _ => ret VUndefined)
                     ["seen"] ["seen"] VUndefined eq_refl eq_refl)) _).
    right; reflexivity.
Defined.

(** The statement of C7 taken literally: a result that exposes a callable
    [value] is unwrapped through it.  It fails on an object that has the
    exported [Wrapper] shape but no [_isLiftWrapper] mark: [map] keeps the
    object itself. *)
Lemma map_unwraps_value_method_refuted :
  ~ (forall (x : Value) (fn : Value -> M Value) (w w1 w2 : World) (r u : Value),
       defined x -> fn x w = (Returned r, w1) ->
       is_function (get r K_value) = true ->
       call (get r K_value) w1 = (Returned u, w2) ->
       map (Some x) fn w = (Returned (if isDef u then Some u else None), w2)).
Proof.
  intros claim.
  assert (Hx : defined (VNum 1)) by (split; discriminate).
  specialize (claim (VNum 1) (fun _ => ret bare_wrapper) [] [] [] bare_wrapper (VNum 5)
                    Hx eq_refl eq_refl eq_refl).
  vm_compute in claim. discriminate claim.
Qed.

(** C7, amended.  When what [fn(x)] returns is truthy and carries a truthy
    [_isLiftWrapper], [Some(x).map(fn)] calls its [value()] in the world
    [fn] left; what that call returns goes through the null test ([Some]
    of it if it is neither null nor undefined, None otherwise), and what
    it throws is thrown by [map]. *)
Theorem map_unwraps_marked_wrapper (x : Value) (fn : Value -> M Value) (w w1 : World) (r : Value) :
  fn x w = (Returned r, w1) ->
  truthy r = true ->
  truthy (get r K_isLiftWrapper) = true ->
  map (Some x) fn w =
  match call (get r K_value) w1 with
  | (Returned u, w2) => (Returned (if isDef u then Some u else None), w2)
  | (Threw e, w2) => (Threw e, w2)
  end.
Proof.
  intros Hfn Htruthy Hmark.
  rewrite map_Some. unfold bind, marked_wrapper.
  rewrite Hfn, Htruthy, Hmark. simpl.
  destruct (call (get r K_value) w1) as [[u | e] w2]; reflexivity.
Qed.

Lemma map_unwraps_marked_wrapper_witness :
  map (Some (VNum 1)) (fun _ => ret seven_wrapper) [] = (Returned (Some (VNum 7)), []) /\
  map (Some (VNum 1)) (fun _ => ret null_wrapper) [] = (Returned None, []).
Proof.
  split.
  - exact (map_unwraps_marked_wrapper (VNum 1) (fun _ => ret seven_wrapper) [] []
             seven_wrapper eq_refl eq_refl eq_refl).
  - exact (map_unwraps_marked_wrapper (VNum 1) (fun _ => ret null_wrapper) [] []
             null_wrapper eq_refl eq_refl eq_refl).
Defined.

(** ** The invariant of the data model *)

(** C3. Every Option the public operations produce is well formed: the
    None object, or a [Some] whose content is neither null nor undefined.
    This holds for [Option(v)] on any [v], for [map] and [filter] on a
    well-formed receiver with any function, for [all] on any inputs, and
    for [flatMap] and [orElse] as soon as the function they call returns
    well-formed Options. *)
Theorem produced_options_are_well_formed
  (o v : Value) (fn pred f : Value -> M Value) (alt : M Value) (args : list Value) :
  well_formed o = true ->
  (forall a, yields_well_formed (f a)) ->
  yields_well_formed alt ->
  well_formed (Option v) = true /\
  yields_well_formed (map o fn) /\
  yields_well_formed (filter o pred) /\
  yields_well_formed (all args) /\
  yields_well_formed (flatMap o f) /\
  yields_well_formed (orElse o alt).
Proof.
  intros Ho Hf Halt.
  split; [ apply Option_well_formed | ].
  split; [ | split; [ | split; [ | split ] ] ]; intros w.
  - destruct o; try discriminate Ho; [ | reflexivity ].
    change (VSome o) with (Some o). rewrite map_Some. unfold bind.
    destruct (fn o w) as [[r | e] w1]; [ | exact I ].
    destruct (marked_wrapper r).
    + destruct (call (get r K_value) w1) as [[u | e] w2]; [ | exact I ].
      apply Option_well_formed.
    + apply Option_well_formed.
  - destruct o; try discriminate Ho; [ | reflexivity ].
    change (VSome o) with (Some o). rewrite filter_Some. unfold bind.
    destruct (pred o w) as [[r | e] w1]; [ | exact I ].
    simpl. destruct (truthy r); [ exact Ho | reflexivity ].
  - unfold all, bind.
    destruct (all_loop args [] w) as [[vs | e] w1]; [ | exact I ].
    destruct (negb (length vs =? length args)%nat); reflexivity.
  - destruct o; try discriminate Ho; [ | reflexivity ].
    change (VSome o) with (Some o). rewrite flatMap_Some. apply Hf.
  - destruct o; try discriminate Ho; [ exact Ho | apply Halt ].
Qed.

Lemma produced_options_are_well_formed_witness :
  well_formed (Some (VNum 1)) = true /\
  yields_well_formed (map (Some (VNum 1)) (fun _ => ret null_wrapper)) /\
  yields_well_formed (all [VNum 1; VNull]).
Proof.
  assert (Ho : well_formed (Some (VNum 1)) = true) by reflexivity.
  assert (Hf : forall a, yields_well_formed ((fun a => ret (Option a)) a)).
  { intros a w. apply Option_well_formed. }
  assert (Halt : yields_well_formed (ret None)).
  { intros w. reflexivity. }
  destruct (produced_options_are_well_formed
              (Some (VNum 1)) VNull (fun _ => ret null_wrapper) (fun _ => ret (VBool true))
              (fun a => ret (Option a)) (ret None) [VNum 1; VNull] Ho Hf Halt)
    as [_ [Hmap [_ [Hall _]]]].
  exact (conj Ho (conj Hmap Hall)).
Defined.

(** ** [Option.all] *)

(** C10. Presence is decided by the null test alone.  A value that is
    neither null nor undefined but falsy ([0], [NaN], the empty string,
    [false]) makes [Option] return a [Some] whose call yields it, and
    [all] keeps such inputs as they are: [all(0, '', false)] is
    [Some([0, '', false])]. *)
Theorem falsy_values_are_present (v : Value) (vs : list Value) (w : World) :
  defined v -> truthy v = false ->
  Forall (fun u => defined u /\ truthy u = false) vs ->
  (Option v = Some v /\ call (Option v) w = (Returned v, w)) /\
  all vs w = (Returned (Some (VArray vs)), w) /\
  all [VNum 0; VStr ""; VBool false] w
  = (Returned (Some (VArray [VNum 0; VStr ""; VBool false])), w).
Proof.
  intros Hv _ Hvs.
  apply isDef_defined in Hv.
  split; [ rewrite (Option_defined v Hv); split; reflexivity | ].
  split; [ | reflexivity ].
  assert (Hraw : unwrap_each vs w = (Returned vs, w)).
  { apply unwrap_each_raw. eapply Forall_impl; [ | exact Hvs ].
    intros u [_ Hu]. rewrite Hu. reflexivity. }
  assert (Hdef : Forall (fun u => isDef u = true) vs).
  { eapply Forall_impl; [ | exact Hvs ]. intros u [Hu _]. now apply isDef_defined. }
  unfold all, bind.
  rewrite (all_loop_complete vs [] vs w w Hraw Hdef). simpl.
  rewrite Nat.eqb_refl. reflexivity.
Qed.

Lemma falsy_values_are_present_witness :
  Option (VNum 0) = Some (VNum 0) /\
  all [VNaN; VStr ""; VNum 0; VBool false] ["before"]
  = (Returned (Some (VArray [VNaN; VStr ""; VNum 0; VBool false])), ["before"]).
Proof.
  assert (Hv : defined (VNum 0)) by (split; discriminate).
  assert (Hvs : Forall (fun u => defined u /\ truthy u = false)
                  [VNaN; VStr ""; VNum 0; VBool false]).
  { repeat constructor; discriminate. }
  destruct (falsy_values_are_present (VNum 0) [VNaN; VStr ""; VNum 0; VBool false]
              ["before"] Hv eq_refl Hvs) as [[Hopt _] [Hall _]].
  exact (conj Hopt Hall).
Defined.

(** ** [orElse] and [flatMap] *)

(** C8. [Some(x).orElse(alt)] returns the receiver and leaves the world as
    it was whatever [alt] is, so [alt] does not run, be it one that writes
    or throws.  On the None object, [orElse(alt)] is one run of [alt] and
    nothing else: same result or exception, same final world; an [alt]
    that writes a line leaves exactly that one line more. *)
Theorem orElse_is_lazy (x : Value) (alt : M Value) (w : World) :
  orElse (Some x) alt w = (Returned (Some x), w) /\
  orElse (Some x) (throw TypeError) w = (Returned (Some x), w) /\
  orElse None alt w = alt w /\
  (forall o, orElse None (_ <- emit "alt" ;; ret o) w = (Returned o, w ++ ["alt"])).
Proof. repeat split. Qed.

(** C9. [Some(x).flatMap(f).flatMap(g)] and
    [Some(x).flatMap(v => f(v).flatMap(g))] are the same computation:
    same result or exception and same final world, for every [f] and [g],
    those that return well-formed Options included. *)
Theorem flatMap_is_associative (x : Value) (f g : Value -> M Value) (w : World) :
  (o <- flatMap (Some x) f ;; flatMap o g) w
  = flatMap (Some x) (fun v => o <- f v ;; flatMap o g) w.
Proof. reflexivity. Qed.

(** ** [forEach] *)

(** C6. The README lists [forEach] among the operations of an Option, but
    neither [Some] nor [makeNone] installs such a member: on a [Some] and
    on the None object alike the name resolves to nothing, and the call
    [o.forEach(procedure)] throws a TypeError without running the
    procedure. *)
Theorem forEach_is_not_a_member (x : Value) (procedure : Value -> M Value) (w : World) :
  lookup "forEach" (methods (Some x)) = Datatypes.None /\
  lookup "forEach" (methods None) = Datatypes.None /\
  forEach (Some x) procedure w = (Threw TypeError, w) /\
  forEach None procedure w = (Threw TypeError, w).
Proof. repeat split. Qed.

(** ** Examples *)

(** The unwrap steps run in the order of the inputs, and stop with the
    first one that comes out null. *)
Example all_unwraps_left_to_right :
  all [noisy_option "first" (VNum 1); VNum 2; noisy_option "third" (VNum 3)] []
  = (Returned (Some (VArray [VNum 1; VNum 2; VNum 3])), ["first"; "third"]) /\
  all [noisy_option "first" (VNum 1); noisy_option "second" VNull; noisy_option "third" (VNum 3)] []
  = (Returned None, ["first"; "second"]).
Proof. split; reflexivity. Qed.


Example readme_all_none :
  all [Option (VNum 10); None; Option (VNum 5); VNull] [] = (Returned None, []).
Proof. reflexivity. Qed.

Example readme_map :
  map (Option (VNum 33)) (fun a => match a with VNum n => ret (VNum (n * 2)) | _ => ret VNaN end) []
  = (Returned (Some (VNum 66)), []).
Proof. reflexivity. Qed.

Example readme_flatMap :
  flatMap (Option (VNum 33)) (fun _ => ret (Option (VNum 44))) [] = (Returned (Some (VNum 44)), []).
Proof. reflexivity. Qed.

Example readme_orElse :
  orElse (Option VNull) (ret (Option (VNum 33))) [] = (Returned (Some (VNum 33)), []).
Proof. reflexivity. Qed.

Example readme_getOrElse :
  getOrElse (Option VUndefined) (VNum 33) [] = (Returned (VNum 33), []).
Proof. reflexivity. Qed.

Example stringification :
  toString (fun _ => ret "33") (Some (VNum 33)) [] = (Returned (VStr "Some(33)"), []) /\
  toString (fun _ => ret "33") None [] = (Returned (VStr "None"), []).
Proof. split; reflexivity. Qed.

Example readme_forEach :
  forEach (Option (VNum 33)) (fun a => emit "33") [] = (Threw TypeError, []).
Proof. reflexivity. Qed.

(** * Beyond the claims: the rest of src/option.ts *)

(** ** Helper facts *)

Lemma Option_undefined (v : Value) : isDef v = false -> Option v = None.
Proof. unfold Option, OptionObject; intros ->; reflexivity. Qed.

Lemma well_formed_Option (o : Value) : well_formed o = true -> o = Option (payload o).
Proof.
  destruct o; simpl; try discriminate.
  - intros H. now rewrite (Option_defined o H).
  - reflexivity.
Qed.

Lemma truthy_assoc_has_key (key : string) (props : list (string * Value)) :
  truthy (assoc key props) = true -> has_key key props = true.
Proof.
  induction props as [ | [k v] rest IH]; simpl; [ discriminate | ].
  destruct (k =? key); simpl; auto.
Qed.

Lemma unwrap_quiet (a : Value) (w : World) :
  quiet a = true -> unwrap a w = (Returned (payload a), w).
Proof.
  unfold unwrap; destruct a; simpl; try reflexivity;
    unfold recognised; simpl; intros H; apply negb_true_iff in H;
    rewrite ?H; reflexivity.
Qed.

Lemma all_loop_quiet (args values : list Value) (w : World) :
  Forall (fun a => quiet a = true) args ->
  all_loop args values w
  = (Returned (values ++ prefix_defined (List.map payload args)), w).
Proof.
  intros H; revert values; induction H as [ | a rest Ha _ IH]; intros values; simpl.
  - unfold ret. now rewrite app_nil_r.
  - unfold bind. rewrite (unwrap_quiet a w Ha).
    destruct (isDef (payload a)); simpl.
    + rewrite IH. now rewrite <- app_assoc.
    + unfold ret. now rewrite app_nil_r.
Qed.

Lemma prefix_defined_all (vs : list Value) :
  forallb isDef vs = true -> prefix_defined vs = vs.
Proof.
  induction vs as [ | v rest IH]; simpl; [ reflexivity | ].
  destruct (isDef v); simpl; [ | discriminate ].
  intros H; now rewrite IH.
Qed.

Lemma prefix_defined_short (vs : list Value) :
  forallb isDef vs = false -> length (prefix_defined vs) < length vs.
Proof.
  induction vs as [ | v rest IH]; simpl; [ discriminate | ].
  destruct (isDef v); simpl; intros H; [ | lia ].
  specialize (IH H). lia.
Qed.

(** An input whose unwrap step throws ends the loop with that exception. *)
Lemma all_loop_throw (pre post values vs : list Value) (a e : Value) (w w1 w2 : World) :
  unwrap_each pre w = (Returned vs, w1) ->
  Forall (fun v => isDef v = true) vs ->
  unwrap a w1 = (Threw e, w2) ->
  all_loop (pre ++ a :: post) values w = (Threw e, w2).
Proof.
  revert values vs w; induction pre as [ | b rest IH]; intros values vs w; simpl.
  - unfold ret; intros H _ Ha; inversion H; subst.
    unfold bind; rewrite Ha. reflexivity.
  - unfold bind at 1 3.
    destruct (unwrap b w) as [[u | e0] w0]; [ | discriminate ].
    unfold bind.
    destruct (unwrap_each rest w0) as [[vs' | e0] w3] eqn:E; [ | discriminate ].
    unfold ret; intros H Hall Ha; inversion H; subst.
    inversion Hall as [ | ? ? Hu Hrest ]; subst.
    rewrite Hu; simpl.
    exact (IH (values ++ [u]) vs' w0 E Hrest Ha).
Qed.

(** ** The None object *)

(** X1. On the None object [map], [flatMap] and [filter] return the None
    object and leave the world as it was, whatever function they are
    given: the function is not run. *)
Theorem None_ignores_its_function (fn : Value -> M Value) (w : World) :
  map None fn w = (Returned None, w) /\
  flatMap None fn w = (Returned None, w) /\
  filter None fn w = (Returned None, w) /\
  map None (fun _ => throw TypeError) w = (Returned None, w).
Proof. repeat split. Qed.

(** ** Observers composed with the constructor *)

(** X2. [Option(v).getOrElse(alt)] is [v] when [v] is neither null nor
    undefined and [alt] otherwise, and [Option(v).isDefined()] is the
    result of that same null test. *)
Theorem getOrElse_of_Option (v alt : Value) (w : World) :
  getOrElse (Option v) alt w = (Returned (if isDef v then v else alt), w) /\
  isDefined (Option v) w = (Returned (VBool (isDef v)), w).
Proof.
  unfold Option, OptionObject; destruct (isDef v); split; reflexivity.
Qed.

(** X3. [Option(v).match(matcher)] is the run of exactly one branch:
    [matcher.Some(v)] when [v] is neither null nor undefined,
    [matcher.None()] otherwise. *)
Theorem match_of_Option (v : Value) (matcher : Matcher) (w : World) :
  match_ (Option v) matcher w
  = if isDef v then matcher_Some matcher v w else matcher_None matcher w.
Proof.
  unfold Option, OptionObject; destruct (isDef v); reflexivity.
Qed.

(** X4. Reading a well-formed Option, by calling it or through [toJSON],
    and handing the result back to [Option] gives the Option one started
    from; the other way round, [toJSON] of [Option(v)] is [v], with
    undefined turned into null. *)
Theorem read_then_Option_round_trip (o : Value) (w : World) :
  well_formed o = true ->
  (r <- call o ;; ret (Option r)) w = (Returned o, w) /\
  (r <- toJSON o ;; ret (Option r)) w = (Returned o, w) /\
  (forall v, toJSON (Option v) w = (Returned (if isDef v then v else VNull), w)).
Proof.
  intros Ho. split; [ | split ].
  - destruct o; try discriminate Ho; [ | reflexivity ].
    simpl in Ho. unfold bind; simpl. now rewrite (Option_defined o Ho).
  - destruct o; try discriminate Ho; [ | reflexivity ].
    simpl in Ho.
    unfold bind; simpl. now rewrite (Option_defined o Ho).
  - intros v. unfold Option, OptionObject; destruct (isDef v); reflexivity.
Qed.

Lemma read_then_Option_round_trip_witness :
  (r <- call (Some (VStr "a")) ;; ret (Option r)) [] = (Returned (Some (VStr "a")), []) /\
  (r <- toJSON None ;; ret (Option r)) ["x"] = (Returned None, ["x"]).
Proof.
  split.
  - exact (proj1 (read_then_Option_round_trip (Some (VStr "a")) [] eq_refl)).
  - exact (proj1 (proj2 (read_then_Option_round_trip None ["x"] eq_refl))).
Defined.

(** X19. [Option(v).toString()] is ['None'] when [v] is null or undefined,
    and the host's conversion is not asked; otherwise it is the text
    ['Some('], the conversion of [v], and [')'], and what the conversion
    throws is thrown. *)
Theorem toString_of_Option (ToString : Value -> M string) (v : Value) (w : World) :
  toString ToString (Option v) w
  = if isDef v
    then match ToString v w with
         | (Returned s, w') => (Returned (VStr ("Some(" ++ s ++ ")")), w')
         | (Threw e, w') => (Threw e, w')
         end
    else (Returned (VStr "None"), w).
Proof.
  unfold Option, OptionObject; destruct (isDef v) eqn:E; [ | reflexivity ].
  unfold toString, send; simpl. unfold bind.
  destruct (ToString v w) as [[s | e] w']; reflexivity.
Qed.

(** ** How the combinators compose *)

(** X5. [Option(v).flatMap(f)] is [f(v)] when [v] is neither null nor
    undefined; otherwise it is the None object and [f] is not run. *)
Theorem flatMap_of_Option (v : Value) (f : Value -> M Value) (w : World) :
  flatMap (Option v) f w = if isDef v then f v w else (Returned None, w).
Proof.
  unfold Option, OptionObject; destruct (isDef v); reflexivity.
Qed.

(** X6. On a well-formed Option, [flatMap] with the constructor itself,
    [o.flatMap(v => Option(v))], gives the Option back. *)
Theorem flatMap_with_Option_is_identity (o : Value) (w : World) :
  well_formed o = true ->
  flatMap o (fun v => ret (Option v)) w = (Returned o, w).
Proof.
  intros Ho. destruct o; try discriminate Ho; [ | reflexivity ].
  simpl in Ho. change (VSome o) with (Some o).
  rewrite flatMap_Some. unfold ret. now rewrite (Option_defined o Ho).
Qed.

Lemma flatMap_with_Option_is_identity_witness :
  flatMap (Some (VNum 0)) (fun v => ret (Option v)) [] = (Returned (Some (VNum 0)), []).
Proof.
  exact (flatMap_with_Option_is_identity (Some (VNum 0)) [] eq_refl).
Defined.

(** X7. For a function none of whose results is a marked wrapper,
    [Option(u).map(fn)] is [Option(u).flatMap(v => Option(fn(v)))]. *)
Theorem map_is_flatMap_of_Option (u : Value) (fn : Value -> M Value) (w : World) :
  returns_plain fn ->
  map (Option u) fn w = flatMap (Option u) (fun v => r <- fn v ;; ret (Option r)) w.
Proof.
  intros Hplain.
  destruct (isDef u) eqn:E;
    [ rewrite (Option_defined u E) | rewrite (Option_undefined u E); reflexivity ].
  rewrite map_Some, flatMap_Some. unfold bind.
  specialize (Hplain u w).
  destruct (fn u w) as [[r | e] w1]; [ | reflexivity ].
  simpl in Hplain. rewrite Hplain. reflexivity.
Qed.

Lemma map_is_flatMap_of_Option_witness :
  map (Option (VNum 3)) (fun v => ret (VArray [v])) []
  = flatMap (Option (VNum 3)) (fun v => r <- ret (VArray [v]) ;; ret (Option r)) [].
Proof.
  refine (map_is_flatMap_of_Option (VNum 3) (fun v => ret (VArray [v])) [] _).
  intros v w. reflexivity.
Defined.

(** X8. Two [map]s in a row are one [map] with the composed function as
    long as the first function returns, for the content at hand, a value
    that is neither null nor undefined and not a marked wrapper. *)
Theorem map_composes_on_defined_results
  (x : Value) (f g : Value -> M Value) (w w1 : World) (r : Value) :
  f x w = (Returned r, w1) ->
  marked_wrapper r = false ->
  defined r ->
  (o <- map (Some x) f ;; map o g) w = map (Some x) (fun v => r <- f v ;; g r) w.
Proof.
  intros Hf Hplain Hr. apply isDef_defined in Hr.
  unfold bind at 1. rewrite (map_Some x f w). unfold bind at 1 2.
  rewrite Hf, Hplain. unfold ret. rewrite (Option_defined r Hr).
  rewrite (map_Some r g w1), (map_Some x). unfold bind. rewrite Hf.
  reflexivity.
Qed.

Lemma map_composes_on_defined_results_witness :
  (o <- map (Some (VNum 1)) (fun v => ret (VArray [v])) ;; map o (fun v => ret (VArray [v; v]))) []
  = map (Some (VNum 1)) (fun v => r <- ret (VArray [v]) ;; ret (VArray [r; r])) [].
Proof.
  refine (map_composes_on_defined_results (VNum 1) (fun v => ret (VArray [v]))
            (fun v => ret (VArray [v; v])) [] [] (VArray [VNum 1]) eq_refl eq_refl _).
  split; discriminate.
Defined.

(** X9. When the first function returns null or undefined, two [map]s in
    a row give the None object in the world the first function left: the
    second function is not run, whereas one [map] with the composed
    function would run it. *)
Theorem map_chain_stops_at_null
  (x : Value) (f g : Value -> M Value) (w w1 : World) (r : Value) :
  f x w = (Returned r, w1) ->
  r = VNull \/ r = VUndefined ->
  (o <- map (Some x) f ;; map o g) w = (Returned None, w1) /\
  map (Some x) (fun v => r <- f v ;; g r) w
  = (r' <- g r ;;
     r' <- (if marked_wrapper r' then call (get r' K_value) else ret r') ;;
     ret (Option r')) w1.
Proof.
  intros Hf Hr. split.
  - unfold bind at 1. rewrite (map_Some x f w). unfold bind at 1 2. rewrite Hf.
    destruct Hr as [-> | ->]; reflexivity.
  - rewrite (map_Some x). unfold bind. rewrite Hf. reflexivity.
Qed.

Lemma map_chain_stops_at_null_witness :
  (o <- map (Some (VNum 1)) (fun _ => ret VNull) ;; map o (fun _ => emit "g")) []
  = (Returned None, []) /\
  map (Some (VNum 1)) (fun v => r <- ret VNull ;; (fun _ => ret (VNum 2)) r) []
  = (Returned (Some (VNum 2)), []).
Proof.
  split.
  - exact (proj1 (map_chain_stops_at_null (VNum 1) (fun _ => ret VNull) (fun _ => emit "g")
                    [] [] VNull eq_refl (or_introl eq_refl))).
  - exact (proj2 (map_chain_stops_at_null (VNum 1) (fun _ => ret VNull) (fun _ => ret (VNum 2))
                    [] [] VNull eq_refl (or_introl eq_refl))).
Defined.

(** X10. Two [filter]s in a row are one [filter] with [v => p(v) && q(v)]:
    the second predicate runs only when the first answered something
    truthy. *)
Theorem filter_composes (u : Value) (p q : Value -> M Value) (w : World) :
  (o <- filter (Option u) p ;; filter o q) w = filter (Option u) (both p q) w.
Proof.
  unfold Option, OptionObject. destruct (isDef u); [ | reflexivity ].
  unfold bind at 1. rewrite (filter_Some u p w), (filter_Some u (both p q) w).
  unfold both, bind.
  destruct (p u w) as [[a | e] w1]; [ | reflexivity ].
  unfold ret. destruct (truthy a) eqn:Ea.
  - rewrite (filter_Some u q w1). unfold bind.
    destruct (q u w1) as [[b | e] w2]; reflexivity.
  - rewrite Ea. reflexivity.
Qed.

(** X11. [orElse] is associative, and the None object is neutral on its
    right: [Option(u).orElse(a).orElse(b)] is
    [Option(u).orElse(() => a().orElse(b))], and
    [Option(u).orElse(() => None)] is [Option(u)]. *)
Theorem orElse_is_associative (u : Value) (a b : M Value) (w : World) :
  (o <- orElse (Option u) a ;; orElse o b) w
  = orElse (Option u) (o <- a ;; orElse o b) w /\
  orElse (Option u) (ret None) w = (Returned (Option u), w).
Proof.
  unfold Option, OptionObject. destruct (isDef u); split; reflexivity.
Qed.

(** X18. [map] does not flatten: when the function returns an Option, the
    result is a [Some] holding that Option, the None object included,
    whereas [flatMap] returns the Option itself. *)
Theorem map_does_not_flatten (x u : Value) (fn : Value -> M Value) (w w' : World) :
  fn x w = (Returned (Option u), w') ->
  map (Some x) fn w = (Returned (Some (Option u)), w') /\
  flatMap (Some x) fn w = (Returned (Option u), w').
Proof.
  intros Hfn. split; [ | rewrite flatMap_Some; exact Hfn ].
  rewrite map_Some. unfold bind. rewrite Hfn.
  unfold Option, OptionObject. destruct (isDef u); reflexivity.
Qed.

Lemma map_does_not_flatten_witness :
  map (Some (VNum 1)) (fun _ => ret (Option VNull)) [] = (Returned (Some None), []) /\
  flatMap (Some (VNum 1)) (fun _ => ret (Option VNull)) [] = (Returned None, []).
Proof.
  exact (map_does_not_flatten (VNum 1) VNull (fun _ => ret (Option VNull)) [] [] eq_refl).
Defined.

(** ** Exceptions *)

(** X16. What the function given to [map], [flatMap] or [filter] throws
    is thrown by the call, in the world the function left: nothing is
    caught or replaced. *)
Theorem callback_exception_propagates
  (x e : Value) (fn : Value -> M Value) (w w' : World) :
  fn x w = (Threw e, w') ->
  map (Some x) fn w = (Threw e, w') /\
  flatMap (Some x) fn w = (Threw e, w') /\
  filter (Some x) fn w = (Threw e, w').
Proof.
  intros Hfn. rewrite map_Some, flatMap_Some, filter_Some.
  unfold bind. rewrite Hfn. repeat split.
Qed.

Lemma callback_exception_propagates_witness :
  map (Some (VNum 1)) (fun v => _ <- emit "seen" ;; throw v) []
  = (Threw (VNum 1), ["seen"]).
Proof.
  exact (proj1 (callback_exception_propagates (VNum 1) (VNum 1)
                  (fun v => _ <- emit "seen" ;; throw v) [] ["seen"] eq_refl)).
Defined.

(** X17. A marked wrapper whose [value] is not a function makes [map]
    throw a TypeError, in the world the function left. *)
Theorem map_throws_on_wrapper_without_value
  (x : Value) (fn : Value -> M Value) (w w1 : World) (r : Value) :
  fn x w = (Returned r, w1) ->
  marked_wrapper r = true ->
  is_function (get r K_value) = false ->
  map (Some x) fn w = (Threw TypeError, w1).
Proof.
  intros Hfn Hmark Hvalue.
  rewrite map_Some. unfold bind. rewrite Hfn, Hmark.
  destruct (get r K_value); try discriminate Hvalue; reflexivity.
Qed.

Lemma map_throws_on_wrapper_without_value_witness :
  map (Some (VNum 1)) (fun _ => ret (VObject [("_isLiftWrapper", VNum 1)])) []
  = (Threw TypeError, []).
Proof.
  exact (map_throws_on_wrapper_without_value (VNum 1)
           (fun _ => ret (VObject [("_isLiftWrapper", VNum 1)])) [] []
           (VObject [("_isLiftWrapper", VNum 1)]) eq_refl eq_refl eq_refl).
Defined.

(** X13. When the inputs before [a] unwrap to values that are neither
    null nor undefined and the unwrap step of [a] throws, [all] throws
    that exception in the world the step left, whatever follows [a]. *)
Theorem all_propagates_unwrap_exception
  (pre post vs : list Value) (a e : Value) (w w1 w2 : World) :
  unwrap_each pre w = (Returned vs, w1) ->
  Forall defined vs ->
  unwrap a w1 = (Threw e, w2) ->
  all (pre ++ a :: post) w = (Threw e, w2).
Proof.
  intros Hpre Hvs Ha.
  assert (Hdef : Forall (fun u => isDef u = true) vs).
  { eapply Forall_impl; [ | exact Hvs ]. intros u Hu. now apply isDef_defined. }
  unfold all, bind.
  rewrite (all_loop_throw pre post [] vs a e w w1 w2 Hpre Hdef Ha). reflexivity.
Qed.

Lemma all_propagates_unwrap_exception_witness :
  all [VNum 1; VObject [("_isSome", VBool true)]; noisy_option "third" (VNum 3)] []
  = (Threw TypeError, []).
Proof.
  assert (Hvs : Forall defined [VNum 1]).
  { constructor; [ split; discriminate | constructor ]. }
  exact (all_propagates_unwrap_exception
           [VNum 1] [noisy_option "third" (VNum 3)] [VNum 1]
           (VObject [("_isSome", VBool true)]) TypeError [] [] [] eq_refl Hvs eq_refl).
Defined.

(** ** [all] on objects of the library and on plain values *)

(** X12. When every input is an object built by the library or a value
    that the test of [all] rejects, [all] neither writes nor throws: it
    returns [Some] of the array of what the inputs stand for if none of
    them is null or undefined, and the None object otherwise. *)
Theorem all_on_quiet_inputs (args : list Value) (w : World) :
  Forall (fun a => quiet a = true) args ->
  all args w
  = (Returned (if forallb isDef (List.map payload args)
               then Some (VArray (List.map payload args))
               else None), w).
Proof.
  intros Hq. unfold all, bind. rewrite (all_loop_quiet args [] w Hq). simpl.
  destruct (forallb isDef (List.map payload args)) eqn:E.
  - rewrite (prefix_defined_all _ E), length_map, Nat.eqb_refl. reflexivity.
  - pose proof (prefix_defined_short _ E) as Hlen. rewrite length_map in Hlen.
    replace (length (prefix_defined (List.map payload args)) =? length args)%nat with false;
      [ reflexivity | ].
    symmetry. apply Nat.eqb_neq. lia.
Qed.

Lemma all_on_quiet_inputs_witness :
  all [Some (VNum 1); VStr "two"; VArray []] [] 
  = (Returned (Some (VArray [VNum 1; VStr "two"; VArray []])), []) /\
  all [Some (VNum 1); VStr "two"; None; VNum 4] ["x"] = (Returned None, ["x"]).
Proof.
  split.
  - refine (all_on_quiet_inputs [Some (VNum 1); VStr "two"; VArray []] [] _).
    repeat constructor.
  - refine (all_on_quiet_inputs [Some (VNum 1); VStr "two"; None; VNum 4] ["x"] _).
    repeat constructor.
Defined.

(** ** [isOption] *)

(** X14. [isOption] accepts every result of [Option] and rejects every
    value that is not a function, plain objects carrying the marks
    included. *)
Theorem isOption_accepts_Options_only_functions (v : Value) :
  isOption (Option v) = true /\
  (is_function v = false -> isOption v = false).
Proof.
  split.
  - unfold Option, OptionObject; destruct (isDef v); reflexivity.
  - unfold isOption; intros ->; reflexivity.
Qed.

Lemma isOption_accepts_Options_only_functions_witness :
  isOption (VObject [("_isSome", VBool true)]) = false.
Proof.
  exact (proj2 (isOption_accepts_Options_only_functions
                  (VObject [("_isSome", VBool true)])) eq_refl).
Defined.

(** X15. The test by which [all] decides to call an input is not
    [isOption].  An input that [all] takes for an Option is called when
    it is a function, and [isOption] accepts it then; when it is not a
    function, [isOption] rejects it and [all]'s unwrap step throws a
    TypeError.  Conversely a function whose mark is present but falsy is
    accepted by [isOption] and left as it is by [all]. *)
Theorem all_test_versus_isOption (v : Value) (w : World) :
  recognised v = true ->
  (is_function v = true -> isOption v = true /\ unwrap v w = call v w) /\
  (is_function v = false -> isOption v = false /\ unwrap v w = (Threw TypeError, w)) /\
  (forall mark body, truthy mark = false ->
     isOption (VFunction [("_isSome", mark)] body) = true /\
     unwrap (VFunction [("_isSome", mark)] body) w
     = (Returned (VFunction [("_isSome", mark)] body), w)).
Proof.
  intros Hrec.
  assert (Hunwrap : unwrap v w = call v w).
  { unfold unwrap. unfold recognised in Hrec. rewrite Hrec. reflexivity. }
  split; [ | split ].
  - intros Hfun. split; [ | exact Hunwrap ].
    unfold isOption. rewrite Hfun. simpl.
    unfold recognised in Hrec. apply andb_true_iff in Hrec. destruct Hrec as [_ Hmark].
    destruct v; try discriminate Hfun; try reflexivity.
    simpl in *. apply orb_true_iff in Hmark. apply orb_true_iff.
    destruct Hmark as [H | H]; [ left | right ]; now apply truthy_assoc_has_key.
  - intros Hfun. split; [ unfold isOption; rewrite Hfun; reflexivity | ].
    rewrite Hunwrap. destruct v; try discriminate Hfun; reflexivity.
  - intros mark body Hmark. split; [ reflexivity | ].
    unfold unwrap. simpl. rewrite Hmark. reflexivity.
Qed.

Lemma all_test_versus_isOption_witness :
  isOption (noisy_option "n" (VNum 1)) = true /\
  unwrap (VObject [("_isNone", VStr "yes")]) [] = (Threw TypeError, []).
Proof.
  split.
  - exact (proj1 (proj1 (all_test_versus_isOption (noisy_option "n" (VNum 1)) [] eq_refl)
                    eq_refl)).
  - exact (proj2 (proj1 (proj2 (all_test_versus_isOption
                                  (VObject [("_isNone", VStr "yes")]) [] eq_refl))
                    eq_refl)).
Defined.

(** ** [Option.all] on the inputs its documentation names *)









